(** * create-initializer: the scaffolding pipeline of [src/index.js]

    A shallow embedding of [create] and of the helpers it calls.  JavaScript
    objects used as dictionaries (the yargs option schema, the parsed
    arguments, the render view) are finite maps over strings; asynchronous
    functions are computations in a small monad that threads the process
    state (working directory and the history of external calls) and
    distinguishes a normal completion, an early [return] and a thrown
    error.  The external collaborators (file system, prompt engine,
    renderer, license generator, child processes) are oracles held in an
    environment record: their answers may depend on everything that
    happened before the call. *)

From Stdlib Require Import ZArith Ascii.
From stdpp Require Import base option list strings pretty gmap.

Local Open Scope Z_scope.

(** ** JavaScript values *)

Inductive value :=
| VUndef
| VBool (b : bool)
| VNum (n : Z)
| VStr (s : string)
| VArr (l : list string).

(** [Array.prototype.join] *)
Fixpoint join (sep : string) (l : list string) : string :=
  match l with
  | [] => ""
  | [x] => x
  | x :: rest => x +:+ sep +:+ join sep rest
  end.

(** What a template literal [`${v}`] inserts. *)
Definition toString (v : value) : string :=
  match v with
  | VUndef => "undefined"
  | VBool true => "true"
  | VBool false => "false"
  | VNum n => pretty n
  | VStr s => s
  | VArr l => join "," l
  end.

Definition truthy (v : value) : bool :=
  match v with
  | VUndef => false
  | VBool b => b
  | VNum n => negb (Z.eqb n 0)
  | VStr s => negb (String.eqb s "")
  | VArr _ => true
  end.

(** Property read on a dictionary: a missing key reads as [undefined]. *)
Definition prop (o : gmap string value) (k : string) : value :=
  default VUndef (o !! k).

(** ** Thrown values *)

(** An [Error] object with the two optional properties the code inspects:
    [code] (Node system errors) and [exitCode] (execa). *)
Record js_error := {
  message : string;
  code : option string;
  exitCode : option Z;
}.

Inductive exn :=
| ErrorObj (e : js_error)
| Thrown (v : value).

(** [new Error(msg)] *)
Definition Error (msg : string) : exn :=
  ErrorObj {| message := msg; code := None; exitCode := None |}.

(** [err.code === c] *)
Definition has_code (err : exn) (c : string) : bool :=
  match err with
  | ErrorObj e => bool_decide (code e = Some c)
  | Thrown _ => false
  end.

(** [err.exitCode == n] *)
Definition has_exitCode (err : exn) (n : Z) : bool :=
  match err with
  | ErrorObj e => bool_decide (exitCode e = Some n)
  | Thrown _ => false
  end.

(** [`${err}`] *)
Definition exn_toString (err : exn) : string :=
  match err with
  | ErrorObj e => "Error: " +:+ message e
  | Thrown v => toString v
  end.

(** A settled promise. *)
Inductive answer (A : Type) :=
| Resolved (a : A)
| Rejected (e : exn).
Arguments Resolved {A} a.
Arguments Rejected {A} e.

(** ** The option schema *)

Inductive prompt_policy := PromptAlways | PromptIfNoArg | PromptNever.

(** One entry of the yargs-interactive schema; an absent property is
    [None] (or [VUndef] for [default]). *)
Record OptionData := {
  od_type : option string;
  od_describe : option string;
  od_default : value;
  od_prompt : option prompt_policy;
  od_choices : option (list string);
}.

Abbreviation schema := (gmap string OptionData).
Abbreviation dict := (gmap string value).

(** Object spread [{ ...dst, ...src }]: the entries of [src] win. *)
Definition spread {V} (dst src : gmap string V) : gmap string V := src ∪ dst.

(** ** Process state and external calls *)

Record ExecaOptions := {
  eo_shell : bool;
  eo_stdio : option string;
  eo_cwd : option string;
}.

Definition execa_defaults : ExecaOptions :=
  {| eo_shell := false; eo_stdio := None; eo_cwd := None |}.

Inductive event :=
| EvLog (line : string)
| EvGitconfig
| EvTemplates (root pfx : string)
| EvReaddir (dir : string)
| EvStat (path : string)
| EvPrompt (usage : string) (opts : schema)
| EvCopy (projectDir templateDir : string) (view : dict)
| EvWriteFile (path text : string)
| EvExeca (file : string) (args : list string) (opts : ExecaOptions)
| EvSpawn (command : string) (args : list string)
| EvChdir (dir : string).

Record state := {
  cwd : string;
  trace : list event;
}.

Definition record (e : event) (st : state) : state :=
  {| cwd := cwd st; trace := trace st ++ [e] |}.

Inductive outcome (A : Type) :=
| Val (a : A)
| Ret
| Throw (e : exn).
Arguments Val {A} a.
Arguments Ret {A}.
Arguments Throw {A} e.

Definition M (A : Type) : Type := state → outcome A * state.

Definition ret {A} (a : A) : M A := fun st => (Val a, st).

Definition bind {A B} (m : M A) (k : A → M B) : M B :=
  fun st =>
    match m st with
    | (Val a, st') => k a st'
    | (Ret, st') => (Ret, st')
    | (Throw e, st') => (Throw e, st')
    end.

Notation "'let*' x := m 'in' k" := (bind m (fun x => k))
  (at level 10, x pattern, m at level 100, k at level 200).
Notation "m ;; k" := (bind m (fun _ => k))
  (at level 100, k at level 200, right associativity).

(** [throw e] *)
Definition throw {A} (e : exn) : M A := fun st => (Throw e, st).

(** [return] from the enclosing function. *)
Definition return_ {A} : M A := fun st => (Ret, st).

(** [try { body } catch (err) { handler }] *)
Definition try_catch {A} (body : M A) (handler : exn → M A) : M A :=
  fun st =>
    match body st with
    | (Throw e, st') => handler e st'
    | r => r
    end.

(** An async function seen from outside: the promise it settles to and
    the state it leaves.  Caller-supplied functions have this type. *)
Definition callback (A : Type) : Type := state → answer A * state.

(** [await Promise.resolve(f(...))] *)
Definition await {A} (c : callback A) : M A :=
  fun st =>
    match c st with
    | (Resolved a, st') => (Val a, st')
    | (Rejected err, st') => (Throw err, st')
    end.

(** A function body as a promise: falling off the end and a bare
    [return] both resolve to [undefined]. *)
Definition settle (body : M unit) : callback unit :=
  fun st =>
    match body st with
    | (Val _, st') => (Resolved (), st')
    | (Ret, st') => (Resolved (), st')
    | (Throw err, st') => (Rejected err, st')
    end.

(** An external call: recorded in the history, answered by the oracle
    from the history before it. *)
Definition ask {A} (e : event) (oracle : list event → answer A) : M A :=
  fun st =>
    match oracle (trace st) with
    | Resolved a => (Val a, record e st)
    | Rejected err => (Throw err, record e st)
    end.

(** A synchronous library call that returns or throws. *)
Definition sync {A} (r : answer A) : M A :=
  fun st =>
    match r with
    | Resolved a => (Val a, st)
    | Rejected err => (Throw err, st)
    end.

Definition console_log (line : string) : M unit :=
  fun st => (Val (), record (EvLog line) st).

Definition process_cwd : M string := fun st => (Val (cwd st), st).

(** ** Records of the pipeline *)

(** [config.user] of the global git configuration. *)
Record GitUser := {
  gu_name : value;
  gu_email : value;
}.

Definition no_user : GitUser := {| gu_name := VUndef; gu_email := VUndef |}.

(** What [makeLicenseSync] returns. *)
Record License := {
  header : value;
  text : value;
  warranty : value;
}.

Record LicenseOptions := {
  lo_year : Z;
  lo_project : string;
  lo_description : value;
  lo_organization : string;
}.

(** The object handed to the [after] hook and to a [caveat] function. *)
Record HookContext := {
  hc_name : string;
  hc_projectDir : string;
  hc_template : value;
  hc_templateDir : string;
  hc_year : Z;
  hc_run : string → ExecaOptions → callback unit;
  hc_installNpmPackage : string → callback unit;
  hc_answers : dict;
}.

Inductive Caveat :=
| CaveatString (s : string)
| CaveatFunction (f : HookContext → callback value)
| CaveatOther (v : value).

(** The [options] argument of [create]; an absent property is [None]. *)
Record Options := {
  templateRoot : string;
  templatePrefix : option string;
  promptForTemplate : option bool;
  defaultTemplate : option string;
  skipLicense : bool;
  skipGit : bool;
  modifyName : option (string → callback string);
  defaultPath : option string;
  extra : option schema;
  after : option (HookContext → callback value);
  caveat : option Caveat;
}.

(** The environment: [process.argv[2]], the clock, and the libraries the
    module requires.  Asynchronous or effectful collaborators answer from
    the history of calls so far. *)
Record Env := {
  argv2 : option string;
  currentYear : Z;
  path_basename : string → string;
  path_resolve : string → list string → string;
  chalk_green : string → string;
  chalk_bold_cyan : string → string;
  availableLicenses : list string;
  makeLicenseSync : value → LicenseOptions → answer License;
  gitconfig_get : list event → answer (option GitUser);
  getAvailableTemplates : list event → string → string → answer (list string);
  fs_readdir : list event → string → answer (list string);
  fs_stat : list event → string → answer unit;
  fs_writeFile : list event → string → string → answer unit;
  yargsInteractive : list event → string → schema → answer dict;
  copy : list event → string → string → dict → answer unit;
  execa : list event → string → list string → ExecaOptions → answer unit;
  spawn_close : list event → string → list string → Z;
  chdir : list event → string → answer unit;
}.

(** ** Helpers of [src/index.js] *)

Definition nl : string := String "010"%char "".

(** [s.split(sep)] for a separator of one character *)
Fixpoint split (sep : ascii) (s : string) : list string :=
  match s with
  | "" => [""]
  | String c rest =>
      if Ascii.eqb c sep then "" :: split sep rest
      else match split sep rest with
           | w :: ws => String c w :: ws
           | [] => [String c ""]
           end
  end.

(** [getContact], lines 82-84 *)
Definition getContact (author email : value) : string :=
  toString author +:+ (if truthy email then " <" +:+ toString email +:+ ">" else "").

(** The regular expression [/^[^$_]/]: a first character exists and is
    neither [$] nor [_]. *)
Definition starts_public (k : string) : bool :=
  match k with
  | "" => false
  | String c _ => negb (Ascii.eqb c "$"%char || Ascii.eqb c "_"%char)
  end.

(** The filter of lines 196-199. *)
Definition keep_arg (arg : string * value) : bool :=
  starts_public arg.1 && negb (bool_decide (arg.1 ∈ ["interactive"; "template"])).

(** [filteredArgs], lines 195-203: entries, filter, reduce into [{}]. *)
Definition filterArgs (args : dict) : dict :=
  foldl (fun sum cur => <[cur.1 := cur.2]> sum) ∅
        (filter (fun arg => keep_arg arg = true) (map_to_list args)).

(** [view], lines 205-210 *)
Definition makeView (filteredArgs : dict) (name : string) (year : Z) (contact : string) : dict :=
  <["contact" := VStr contact]>
    (<["year" := VNum year]>
      (<["name" := VStr name]> filteredArgs)).

(** [x && x || ''] inside a template literal *)
Definition section_or_empty (x : value) : string :=
  if truthy x then toString x else "".

(** [licenseText], line 229 *)
Definition licenseText (license : License) : string :=
  section_or_empty (header license) +:+ toString (text license)
    +:+ section_or_empty (warranty license).

(** ** The functions of [src/index.js] *)

Section Pipeline.

Variable env : Env.

(** [path.resolve(...segments)], relative to the working directory *)
Definition resolve (segments : list string) : M string :=
  fun st => (Val (path_resolve env (cwd st) segments), st).

(** [process.chdir(dir)]: throws, or makes [dir] the working directory
    (identified with the path it was given). *)
Definition process_chdir (dir : string) : M unit :=
  fun st =>
    match chdir env (trace st) dir with
    | Resolved _ => (Val (), {| cwd := dir; trace := trace st ++ [EvChdir dir] |})
    | Rejected err => (Throw err, record (EvChdir dir) st)
    end.

(** [getGitUser], lines 15-22 *)
Definition getGitUser : M GitUser :=
  try_catch
    (let* config := ask EvGitconfig (gitconfig_get env) in
     ret (default no_user config))
    (fun _ => ret no_user).

(** [spawnPromise], lines 24-38; every caller passes [{ stdio: 'inherit' }]. *)
Definition spawnPromise (command : string) (args : list string) : M Z :=
  fun st =>
    let code := spawn_close env (trace st) command args in
    if negb (Z.eqb code 0)
    then (Throw (Thrown (VNum code)), record (EvSpawn command args) st)
    else (Val code, record (EvSpawn command args) st).

(** [installDeps], lines 40-56 *)
Definition installDeps (rootDir : string) (useYarn : bool) : M unit :=
  let* (command, args) :=
    if useYarn then ret ("yarnpkg", ["install"; "--cwd"; rootDir])
    else (process_chdir rootDir ;; ret ("npm", ["install"])) in
  try_catch
    (spawnPromise command args ;; ret ())
    (fun err => throw (Error ("installDeps failed: " +:+ exn_toString err))).

(** [IsYarnAvailable], lines 58-65 *)
Definition IsYarnAvailable : M bool :=
  try_catch
    (ask (EvExeca "yarnpkg" ["--version"] execa_defaults)
         (fun h => execa env h "yarnpkg" ["--version"] execa_defaults) ;;
     ret true)
    (fun _ => ret false).

(** [exists], lines 67-76 *)
Definition exists_ (filePath baseDir : string) : M bool :=
  let* p := resolve [baseDir; filePath] in
  try_catch
    (ask (EvStat p) (fun h => fs_stat env h p) ;; ret true)
    (fun err => if has_code err "ENOENT" then ret false else throw err).

(** [initGit], lines 78-80 *)
Definition initGit (root : string) : M unit :=
  let opts := {| eo_shell := true; eo_stdio := None; eo_cwd := Some root |} in
  ask (EvExeca "git init" [] opts) (fun h => execa env h "git init" [] opts).

(** [isEmptyDir], lines 86-97 *)
Definition isEmptyDir (dirname : string) : M bool :=
  try_catch
    (let* entries := ask (EvReaddir dirname) (fun h => fs_readdir env h dirname) in
     ret (Nat.eqb (length entries) 0))
    (fun err => if has_code err "ENOENT" then ret true else throw err).

(** The object literal of lines 111-143, before [...extraOptions]. *)
Definition baseOptions (gitUser : GitUser) (availableTemplates : list string)
    (askForTemplate : bool) (defaultTemplate : string) (skipLicense : bool) : schema :=
  <["license" :=
      {| od_type := Some "list"; od_describe := Some "license";
         od_default := VUndef;
         od_prompt := Some (if skipLicense then PromptNever else PromptIfNoArg);
         od_choices := Some (availableLicenses env ++ ["UNLICENSED"]) |}]>
   (<["template" :=
      {| od_type := Some "list"; od_describe := Some "template";
         od_default := VStr defaultTemplate;
         od_prompt := Some (if askForTemplate then PromptIfNoArg else PromptNever);
         od_choices := Some availableTemplates |}]>
   (<["email" :=
      {| od_type := Some "input"; od_describe := Some "author email";
         od_default := gu_email gitUser;
         od_prompt := Some (if skipLicense then PromptNever else PromptIfNoArg);
         od_choices := None |}]>
   (<["author" :=
      {| od_type := Some "input"; od_describe := Some "author name";
         od_default := gu_name gitUser;
         od_prompt := Some (if skipLicense then PromptNever else PromptIfNoArg);
         od_choices := None |}]>
   (<["description" :=
      {| od_type := Some "input"; od_describe := Some "description";
         od_default := VStr "description";
         od_prompt := Some (if skipLicense then PromptNever else PromptIfNoArg);
         od_choices := None |}]>
   (<["interactive" :=
      {| od_type := None; od_describe := None; od_default := VBool true;
         od_prompt := None; od_choices := None |}]> ∅))))).

(** [getYargsOptions], lines 99-147 *)
Definition getYargsOptions (templateRoot templatePrefix : string)
    (promptForTemplate : bool) (defaultTemplate : string)
    (skipLicense : bool) (extraOptions : schema) : M schema :=
  let* gitUser := getGitUser in
  let* availableTemplates :=
    ask (EvTemplates templateRoot templatePrefix)
        (fun h => getAvailableTemplates env h templateRoot templatePrefix) in
  let isMultipleTemplates := Nat.ltb 1 (length availableTemplates) in
  let askForTemplate := isMultipleTemplates && promptForTemplate in
  let yargOption :=
    spread (baseOptions gitUser availableTemplates askForTemplate
                        defaultTemplate skipLicense)
           extraOptions in
  ret yargOption.

(** *** [create], lines 149-322

    The body is cut into the stages it runs in order; the local constants
    a later stage reads are carried in [Locals]. *)

Variable appName : string.
Variable options : Options.

Record Locals := {
  l_name : string;
  l_projectDir : string;
  l_args : dict;
  l_template : value;
  l_templateDir : string;
  l_year : Z;
  l_contact : string;
  l_filteredArgs : dict;
  l_useYarn : bool;
}.

(** Lines 155-165: [name] and [projectDir].  An empty [defaultPath] is
    falsy. *)
Definition resolveName (firstArg : string) : M (string * string) :=
  let useCurrentDir := String.eqb firstArg "." in
  let* name :=
    if useCurrentDir then (let* d := process_cwd in ret (path_basename env d))
    else match modifyName options with
         | Some f => await (f firstArg)
         | None => ret firstArg
         end in
  let* projectDir :=
    if useCurrentDir then process_cwd
    else match defaultPath options with
         | Some p => if String.eqb p "" then resolve [name]
                     else resolve [p +:+ "/" +:+ name]
         | None => resolve [name]
         end in
  ret (name, projectDir).

(** Lines 167-171 *)
Definition checkDestination (projectDir : string) : M unit :=
  console_log (nl +:+ "New project will be created in "
               +:+ chalk_green env projectDir +:+ "." +:+ nl) ;;
  let* empty := isEmptyDir projectDir in
  if negb empty then throw (Error (projectDir +:+ " is not empty."))
  else ret ().

(** Lines 173-181: the schema handed to the prompt engine. *)
Definition buildSchema : M schema :=
  getYargsOptions (templateRoot options)
                  (default "" (templatePrefix options))
                  (default false (promptForTemplate options))
                  (default "default" (defaultTemplate options))
                  true
                  (default ∅ (extra options)).

(** Lines 173-184: the answers of the prompt engine. *)
Definition promptStage : M dict :=
  let* yargsOption := buildSchema in
  ask (EvPrompt "$0 <project_name> [args]" yargsOption)
      (fun h => yargsInteractive env h "$0 <project_name> [args]" yargsOption).

(** Lines 212-218 *)
Definition render (projectDir templateDir : string) (view : dict) : M unit :=
  console_log (nl +:+ "Creating a new project in "
               +:+ chalk_green env projectDir +:+ "." +:+ nl) ;;
  ask (EvCopy projectDir templateDir view)
      (fun h => copy env h projectDir templateDir view).

(** Lines 220-234 *)
Definition writeLicense (projectDir name : string) (year : Z) (args : dict) : M unit :=
  if negb (skipLicense options) then
    try_catch
      (let* license :=
         sync (makeLicenseSync env (prop args "license")
                 {| lo_year := year; lo_project := name;
                    lo_description := prop args "description";
                    lo_organization :=
                      getContact (prop args "author") (prop args "email") |}) in
       let* file := resolve [projectDir; "LICENSE"] in
       ask (EvWriteFile file (licenseText license))
           (fun h => fs_writeFile env h file (licenseText license)))
      (fun _ => ret ())
  else ret ().

(** Lines 236-241 *)
Definition installStage (projectDir : string) : M bool :=
  let* useYarn := IsYarnAvailable in
  let* manifest := exists_ "package.json" projectDir in
  (if manifest then
     console_log "Installing dependencies." ;;
     installDeps projectDir useYarn
   else ret ()) ;;
  ret useYarn.

(** Lines 155-241: everything up to and including the install. *)
Definition scaffold (firstArg : string) : M Locals :=
  let* (name, projectDir) := resolveName firstArg in
  checkDestination projectDir ;;
  let* args := promptStage in
  let template := prop args "template" in
  let* templateDir :=
    resolve [templateRoot options;
             default "" (templatePrefix options) +:+ toString template] in
  let year := currentYear env in
  let contact := getContact (prop args "author") (prop args "email") in
  let* found := exists_ templateDir "/" in
  (if negb found then throw (Error "No template found") else ret ()) ;;
  let filteredArgs := filterArgs args in
  let view := makeView filteredArgs name year contact in
  render projectDir templateDir view ;;
  writeLicense projectDir name year args ;;
  let* useYarn := installStage projectDir in
  ret {| l_name := name; l_projectDir := projectDir; l_args := args;
         l_template := template; l_templateDir := templateDir;
         l_year := year; l_contact := contact;
         l_filteredArgs := filteredArgs; l_useYarn := useYarn |}.

(** Lines 243-252 *)
Definition gitStage (projectDir : string) : M unit :=
  if negb (skipGit options) then
    try_catch
      (initGit projectDir ;;
       console_log (nl +:+ "Initialized a git repository"))
      (fun err => if has_exitCode err 127 then return_ else throw err)
  else ret ().

(** [run], lines 254-261 *)
Definition run (projectDir : string) (command : string) (opts : ExecaOptions) : M unit :=
  let args := split " "%char command in
  let merged := {| eo_shell := eo_shell opts;
                   eo_stdio := Some (default "inherit" (eo_stdio opts));
                   eo_cwd := Some (default projectDir (eo_cwd opts)) |} in
  ask (EvExeca (hd "" args) (tl args) merged)
      (fun h => execa env h (hd "" args) (tl args) merged).

(** [installNpmPackage], lines 263-283 *)
Definition installNpmPackage (projectDir : string) (useYarn : bool)
    (packageName : string) : M unit :=
  let* (command, args) :=
    if useYarn then ret ("yarnpkg", ["--cwd"; projectDir; "add"; packageName])
    else (process_chdir projectDir ;; ret ("npm", ["install"; "-D"; packageName])) in
  fun st =>
    let code := spawn_close env (trace st) command args in
    if negb (Z.eqb code 0)
    then (Throw (Thrown (VStr ("installDeps failed: " +:+ command +:+ " "
                                 +:+ join " " args))),
          record (EvSpawn command args) st)
    else (Val (), record (EvSpawn command args) st).

(** [afterHookOptions], lines 285-297 *)
Definition afterHookOptions (loc : Locals) : HookContext :=
  {| hc_name := l_name loc;
     hc_projectDir := l_projectDir loc;
     hc_template := l_template loc;
     hc_templateDir := l_templateDir loc;
     hc_year := l_year loc;
     hc_run := fun command opts => settle (run (l_projectDir loc) command opts);
     hc_installNpmPackage :=
       fun packageName =>
         settle (installNpmPackage (l_projectDir loc) (l_useYarn loc) packageName);
     hc_answers := <["contact" := VStr (l_contact loc)]> (l_filteredArgs loc) |}.

(** Lines 299-302 *)
Definition hookStage (ctx : HookContext) : M unit :=
  match after options with
  | Some hook => await (hook ctx) ;; ret ()
  | None => ret ()
  end.

(** Line 304 *)
Definition reportSuccess (name : string) : M unit :=
  console_log (nl +:+ "Success! Created " +:+ chalk_bold_cyan env name +:+ ".").

(** Lines 306-321; an empty string is falsy, and so may be a value of
    another type, which prints nothing either way. *)
Definition caveatStage (ctx : HookContext) : M unit :=
  match caveat options with
  | Some (CaveatString s) =>
      if String.eqb s "" then ret () else console_log s
  | Some (CaveatFunction f) =>
      let* response := await (f ctx) in
      if truthy response then console_log (toString response) else ret ()
  | Some (CaveatOther _) => ret ()
  | None => ret ()
  end.

(** Lines 254-321: what follows the version-control stage. *)
Definition finish (loc : Locals) : M unit :=
  let ctx := afterHookOptions loc in
  hookStage ctx ;;
  reportSuccess (l_name loc) ;;
  caveatStage ctx.

Definition create_body : M unit :=
  match argv2 env with
  | None =>
      console_log ("Usage: " +:+ appName +:+ " <project_name> [args]") ;;
      return_
  | Some firstArg =>
      let* loc := scaffold firstArg in
      gitStage (l_projectDir loc) ;;
      finish loc
  end.

(** The promise [create(appName, options)] settles to, and the state it
    leaves. *)
Definition create : callback unit := settle create_body.

End Pipeline.

(** ** Vocabulary of the statements *)

(** The value that follows [flag] in a command line. *)
Fixpoint flag_value (flag : string) (args : list string) : option string :=
  match args with
  | [] => None
  | a :: rest => if String.eqb a flag then head rest else flag_value flag rest
  end.

(** A section of a license that is a string when present. *)
Definition section_of (s : option string) : value :=
  match s with
  | Some x => VStr x
  | None => VUndef
  end.

(** The lines printed in a history. *)
Definition printed (history : list event) : list string :=
  omap (fun e => match e with EvLog line => Some line | _ => None end) history.

(** The schemas handed to the prompt engine in a history. *)
Definition prompted (history : list event) : list schema :=
  omap (fun e => match e with EvPrompt _ opts => Some opts | _ => None end) history.

(** The prompt policy a schema gives an option. *)
Definition policy (opts : schema) (k : string) : option prompt_policy :=
  opts !! k ≫= od_prompt.

(** Keys by their first character. *)
Definition begins_with (c : ascii) (k : string) : bool :=
  match k with
  | String c' _ => Ascii.eqb c' c
  | "" => false
  end.

(** The keys the projection is described as leaving out: the two fixed
    names and the keys marked internal by a leading [$] or [_]. *)
Definition internal_key (k : string) : bool :=
  bool_decide (k = "interactive") || bool_decide (k = "template")
  || begins_with "$" k || begins_with "_" k.

(** ** A concrete environment

    Used to run the pipeline on explicit inputs: a POSIX-like [path], an
    identity [chalk], two templates, no destination directory yet, a
    manifest in the rendered project, and every command succeeding. *)

Module Demo.

Definition basename (p : string) : string :=
  List.last (split "/"%char p) "".

Definition is_absolute (p : string) : bool :=
  match p with
  | String c _ => Ascii.eqb c "/"%char
  | "" => false
  end.

Definition resolve_from (cwd : string) (segments : list string) : string :=
  foldl (fun acc seg =>
           if is_absolute seg then seg
           else if String.eqb acc "/" then "/" +:+ seg
           else acc +:+ "/" +:+ seg)
        cwd segments.

Definition enoent : exn :=
  ErrorObj {| message := "ENOENT: no such file or directory";
              code := Some "ENOENT"; exitCode := None |}.

Definition command_failed (n : Z) : exn :=
  ErrorObj {| message := "Command failed"; code := None; exitCode := Some n |}.

Definition mit : License :=
  {| header := VUndef; text := VStr "MIT License"; warranty := VUndef |}.

(** The prompt engine answers with every default of the schema, plus the
    positional arguments and the script name. *)
Definition defaults_of (positional : string) (opts : schema) : dict :=
  <["_" := VArr [positional]]>
    (<["$0" := VStr "cli"]>
      (<["license" := VStr "MIT"]> (od_default <$> opts))).

Definition env_with (firstArg : option string) (templates : list string)
    (listing : answer (list string)) (git : answer unit) (status : Z) : Env :=
  {| argv2 := firstArg;
     currentYear := 2026;
     path_basename := basename;
     path_resolve := resolve_from;
     chalk_green := fun s => s;
     chalk_bold_cyan := fun s => s;
     availableLicenses := ["MIT"; "Apache-2.0"];
     makeLicenseSync := fun _ _ => Resolved mit;
     gitconfig_get :=
       fun _ => Resolved (Some {| gu_name := VStr "Ada";
                                  gu_email := VStr "ada@example.org" |});
     getAvailableTemplates := fun _ _ _ => Resolved templates;
     fs_readdir := fun _ _ => listing;
     fs_stat := fun _ _ => Resolved ();
     fs_writeFile := fun _ _ _ => Resolved ();
     yargsInteractive := fun _ _ opts => Resolved (defaults_of "myapp" opts);
     copy := fun _ _ _ _ => Resolved ();
     execa := fun _ file _ _ => if String.eqb file "git init" then git else Resolved ();
     spawn_close := fun _ _ _ => status;
     chdir := fun _ _ => Resolved () |}.

Definition env : Env :=
  env_with (Some "myapp") ["default"; "ts"] (Rejected enoent) (Resolved ()) 0.

Definition options : Options :=
  {| templateRoot := "/opt/templates";
     templatePrefix := None;
     promptForTemplate := None;
     defaultTemplate := None;
     skipLicense := false;
     skipGit := false;
     modifyName := None;
     defaultPath := None;
     extra := None;
     after := None;
     caveat := None |}.

Definition start : state := {| cwd := "/work"; trace := [] |}.

(** A caller with an [after] hook and a caveat. *)
Definition options_with (hook : HookContext → callback value) (note : string) : Options :=
  {| templateRoot := "/opt/templates";
     templatePrefix := None;
     promptForTemplate := None;
     defaultTemplate := None;
     skipLicense := false;
     skipGit := false;
     modifyName := None;
     defaultPath := None;
     extra := None;
     after := Some hook;
     caveat := Some (CaveatString note) |}.

(** A hook that announces itself and resolves. *)
Definition quiet_hook (ctx : HookContext) : callback value :=
  fun st => (Resolved VUndef, record (EvLog "after hook") st).

(** A hook that announces itself and throws. *)
Definition failing_hook (ctx : HookContext) : callback value :=
  fun st => (Rejected (Error "boom"), record (EvLog "after hook") st).


End Demo.

(** ** Variations of the concrete environment *)

(** Whether a promise resolved. *)
Definition resolved {A} (r : answer A) : bool :=
  match r with
  | Resolved _ => true
  | Rejected _ => false
  end.

(** Whether a character occurs in a string. *)
Fixpoint has_char (c : ascii) (s : string) : bool :=
  match s with
  | "" => false
  | String c' rest => Ascii.eqb c' c || has_char c rest
  end.

Module Scenario.

Definition eacces : exn :=
  ErrorObj {| message := "EACCES: permission denied";
              code := Some "EACCES"; exitCode := None |}.

(** [e] with another file system probe. *)
Definition with_stat (stat : list event → string → answer unit) (e : Env) : Env :=
  {| argv2 := argv2 e; currentYear := currentYear e;
     path_basename := path_basename e; path_resolve := path_resolve e;
     chalk_green := chalk_green e; chalk_bold_cyan := chalk_bold_cyan e;
     availableLicenses := availableLicenses e;
     makeLicenseSync := makeLicenseSync e;
     gitconfig_get := gitconfig_get e;
     getAvailableTemplates := getAvailableTemplates e;
     fs_readdir := fs_readdir e; fs_stat := stat;
     fs_writeFile := fs_writeFile e; yargsInteractive := yargsInteractive e;
     copy := copy e; execa := execa e; spawn_close := spawn_close e;
     chdir := chdir e |}.

(** [e] with another renderer. *)
Definition with_copy (render : list event → string → string → dict → answer unit)
    (e : Env) : Env :=
  {| argv2 := argv2 e; currentYear := currentYear e;
     path_basename := path_basename e; path_resolve := path_resolve e;
     chalk_green := chalk_green e; chalk_bold_cyan := chalk_bold_cyan e;
     availableLicenses := availableLicenses e;
     makeLicenseSync := makeLicenseSync e;
     gitconfig_get := gitconfig_get e;
     getAvailableTemplates := getAvailableTemplates e;
     fs_readdir := fs_readdir e; fs_stat := fs_stat e;
     fs_writeFile := fs_writeFile e; yargsInteractive := yargsInteractive e;
     copy := render; execa := execa e; spawn_close := spawn_close e;
     chdir := chdir e |}.

(** [e] with another git identity lookup and template discovery. *)
Definition with_probes (identity : list event → answer (option GitUser))
    (templates : list event → string → string → answer (list string))
    (e : Env) : Env :=
  {| argv2 := argv2 e; currentYear := currentYear e;
     path_basename := path_basename e; path_resolve := path_resolve e;
     chalk_green := chalk_green e; chalk_bold_cyan := chalk_bold_cyan e;
     availableLicenses := availableLicenses e;
     makeLicenseSync := makeLicenseSync e;
     gitconfig_get := identity;
     getAvailableTemplates := templates;
     fs_readdir := fs_readdir e; fs_stat := fs_stat e;
     fs_writeFile := fs_writeFile e; yargsInteractive := yargsInteractive e;
     copy := copy e; execa := execa e; spawn_close := spawn_close e;
     chdir := chdir e |}.

(** [e] with another [execa] and another license generator. *)
Definition with_tools
    (exec : list event → string → list string → ExecaOptions → answer unit)
    (license : value → LicenseOptions → answer License) (e : Env) : Env :=
  {| argv2 := argv2 e; currentYear := currentYear e;
     path_basename := path_basename e; path_resolve := path_resolve e;
     chalk_green := chalk_green e; chalk_bold_cyan := chalk_bold_cyan e;
     availableLicenses := availableLicenses e;
     makeLicenseSync := license;
     gitconfig_get := gitconfig_get e;
     getAvailableTemplates := getAvailableTemplates e;
     fs_readdir := fs_readdir e; fs_stat := fs_stat e;
     fs_writeFile := fs_writeFile e; yargsInteractive := yargsInteractive e;
     copy := copy e; execa := exec; spawn_close := spawn_close e;
     chdir := chdir e |}.

(** A caller with a name transform and a default path. *)
Definition options_named (transform : string → callback string) (base : string) : Options :=
  {| templateRoot := "/opt/templates";
     templatePrefix := None;
     promptForTemplate := None;
     defaultTemplate := None;
     skipLicense := false;
     skipGit := false;
     modifyName := Some transform;
     defaultPath := Some base;
     extra := None;
     after := None;
     caveat := None |}.

(** A caller with a caveat of any kind and no hook. *)
Definition options_caveat (note : Caveat) : Options :=
  {| templateRoot := "/opt/templates";
     templatePrefix := None;
     promptForTemplate := None;
     defaultTemplate := None;
     skipLicense := false;
     skipGit := false;
     modifyName := None;
     defaultPath := None;
     extra := None;
     after := None;
     caveat := Some note |}.

End Scenario.

(** * Properties *)

(** ** Equations of the monad *)

Lemma bind_val {A B} (m : M A) (k : A → M B) st a st' :
  m st = (Val a, st') → bind m k st = k a st'.
Proof. unfold bind. by intros ->. Qed.

Lemma bind_throw {A B} (m : M A) (k : A → M B) st err st' :
  m st = (Throw err, st') → bind m k st = (Throw err, st').
Proof. unfold bind. by intros ->. Qed.

Lemma bind_return {A B} (m : M A) (k : A → M B) st st' :
  m st = (Ret, st') → bind m k st = (Ret, st').
Proof. unfold bind. by intros ->. Qed.

Lemma settle_throw (body : M unit) st err st' :
  body st = (Throw err, st') → settle body st = (Rejected err, st').
Proof. unfold settle. by intros ->. Qed.

Lemma settle_return (body : M unit) st st' :
  body st = (Ret, st') → settle body st = (Resolved (), st').
Proof. unfold settle. by intros ->. Qed.

Lemma bind_val_inv {A B} (m : M A) (k : A → M B) st b st' :
  bind m k st = (Val b, st') →
  ∃ a st1, m st = (Val a, st1) ∧ k a st1 = (Val b, st').
Proof.
  unfold bind. destruct (m st) as [[a| |err] st1]; [eauto|done|done].
Qed.

(** ** Name resolution *)

(** C7: when the first positional argument is absent, [create] prints the
    usage line and resolves; the state it leaves is the initial one plus
    that single line, so no later stage has run. *)
Theorem create_without_argument env appName options st :
  argv2 env = None →
  create env appName options st =
    (Resolved (),
     record (EvLog ("Usage: " +:+ appName +:+ " <project_name> [args]")) st).
Proof.
  intros Harg. unfold create, settle, create_body. rewrite Harg. reflexivity.
Qed.

Lemma create_without_argument_witness :
  create (Demo.env_with None [] (Rejected Demo.enoent) (Resolved ()) 0)
         "create-app" Demo.options Demo.start =
    (Resolved (),
     {| cwd := "/work";
        trace := [EvLog "Usage: create-app <project_name> [args]"] |}).
Proof.
  apply (create_without_argument
           (Demo.env_with None [] (Rejected Demo.enoent) (Resolved ()) 0)).
  reflexivity.
Defined.

(** C10: with ["."] as first argument the name is the basename of the
    working directory and the project directory is the working directory,
    whatever [modifyName] and [defaultPath] are; the state is untouched,
    so the name transform, an arbitrary state transformer, was not run.
    These are the name and the directory the rest of the pipeline (and
    the hook context) works with. *)
Theorem resolveName_current_directory env options st :
  resolveName env options "." st =
    (Val (path_basename env (cwd st), cwd st), st) ∧
  ∀ loc st',
    scaffold env options "." st = (Val loc, st') →
    l_name loc = path_basename env (cwd st) ∧ l_projectDir loc = cwd st ∧
    hc_name (afterHookOptions env loc) = path_basename env (cwd st) ∧
    hc_projectDir (afterHookOptions env loc) = cwd st.
Proof.
  assert (resolveName env options "." st =
            (Val (path_basename env (cwd st), cwd st), st)) as Hname
    by reflexivity.
  split; [exact Hname|].
  intros loc st' Hrun. unfold scaffold in Hrun.
  rewrite (bind_val _ _ _ _ _ Hname) in Hrun.
  repeat (apply bind_val_inv in Hrun as (? & ? & _ & Hrun)).
  unfold ret in Hrun. by simplify_eq.
Qed.

(** The same on a run: inside an empty directory [demo], with a name
    transform and a default path that would both send the project
    elsewhere. *)
Example create_in_current_directory :
  let r := create (Demo.env_with (Some ".") ["default"; "ts"] (Resolved [])
                     (Resolved ()) 0)
                  "create-app"
                  {| templateRoot := "/opt/templates";
                     templatePrefix := None;
                     promptForTemplate := None;
                     defaultTemplate := None;
                     skipLicense := true;
                     skipGit := true;
                     modifyName :=
                       Some (fun _ st => (Resolved "renamed",
                                          record (EvLog "renaming") st));
                     defaultPath := Some "/elsewhere";
                     extra := None;
                     after := None;
                     caveat := None |}
                  {| cwd := "/work/demo"; trace := [] |} in
  r.1 = Resolved () ∧
  printed (trace r.2) =
    [nl +:+ "New project will be created in /work/demo." +:+ nl;
     nl +:+ "Creating a new project in /work/demo." +:+ nl;
     "Installing dependencies.";
     nl +:+ "Success! Created demo."].
Proof. vm_compute. split; reflexivity. Qed.

(** ** License text *)

Lemma section_or_empty_of (s : option string) :
  section_or_empty (section_of s) = default "" s.
Proof.
  destruct s as [x|]; [|reflexivity].
  unfold section_or_empty; simpl. by destruct x.
Qed.

(** C5 fails for the body: an absent [text] is interpolated as the word
    [undefined], not as the empty string. *)
Lemma licenseText_absent_body :
  licenseText {| header := VStr "H"; text := VUndef; warranty := VStr "W" |}
  = "HundefinedW".
Proof. reflexivity. Qed.

(** C5, amended: when the generator returns a license whose body is a
    string, the text written to [LICENSE] in the project directory is
    header, body, warranty in that order, an absent header or warranty
    counting as the empty string; nothing else is written by the stage. *)
Theorem writeLicense_concatenates env options projectDir name year args st
    (h w : option string) (body : string) :
  skipLicense options = false →
  makeLicenseSync env (prop args "license")
    {| lo_year := year; lo_project := name;
       lo_description := prop args "description";
       lo_organization := getContact (prop args "author") (prop args "email") |}
  = Resolved {| header := section_of h; text := VStr body;
                warranty := section_of w |} →
  trace (writeLicense env options projectDir name year args st).2 =
    trace st ++ [EvWriteFile (path_resolve env (cwd st) [projectDir; "LICENSE"])
                             (default "" h +:+ body +:+ default "" w)].
Proof.
  intros Hskip Hgen.
  unfold writeLicense, try_catch, bind, sync, resolve, ask.
  rewrite Hskip, Hgen; simpl.
  unfold licenseText; simpl. rewrite !section_or_empty_of.
  by destruct (fs_writeFile env _ _ _).
Qed.

Lemma writeLicense_concatenates_witness :
  trace (writeLicense
           Demo.env
           Demo.options "/work/myapp" "myapp" 2026 ∅ Demo.start).2 =
    [EvWriteFile "/work/myapp/LICENSE" "MIT License"].
Proof.
  apply (writeLicense_concatenates
           Demo.env
           Demo.options "/work/myapp" "myapp" 2026 ∅ Demo.start
           None None "MIT License");
    reflexivity.
Defined.

(** X2: the license stage is best effort: whatever the generator and the
    file system answer, it completes normally. *)
Lemma writeLicense_never_throws env options projectDir name year args st :
  (writeLicense env options projectDir name year args st).1 = Val ().
Proof.
  unfold writeLicense, try_catch, bind, sync, resolve, ask, ret.
  destruct (skipLicense options); simpl; [done|].
  destruct (makeLicenseSync env _ _); simpl; [|done].
  by destruct (fs_writeFile env _ _ _) as [[]|].
Qed.

(** ** Dependency installation *)

(** C6: with yarn, the one command spawned carries the root directory as
    the value of [--cwd] and the working directory is left as it was;
    with npm, the working directory is changed to the root directory
    first and the one command spawned has no [--cwd] among its arguments
    (when the change of directory itself fails, nothing is spawned). *)
Theorem installDeps_invocation env rootDir useYarn st :
  let st' := (installDeps env rootDir useYarn st).2 in
  if useYarn then
    cwd st' = cwd st ∧
    ∃ args, trace st' = trace st ++ [EvSpawn "yarnpkg" args] ∧
            flag_value "--cwd" args = Some rootDir
  else
    match chdir env (trace st) rootDir with
    | Resolved _ =>
        cwd st' = rootDir ∧
        ∃ args, trace st' = trace st ++ [EvChdir rootDir; EvSpawn "npm" args] ∧
                "--cwd" ∉ args
    | Rejected err =>
        installDeps env rootDir useYarn st =
          (Throw err, record (EvChdir rootDir) st)
    end.
Proof.
  destruct useYarn; simpl.
  - unfold installDeps, try_catch, bind, ret, spawnPromise, throw; simpl.
    destruct (negb _); simpl; (split; [done|]);
      exists ["install"; "--cwd"; rootDir]; done.
  - unfold installDeps, try_catch, bind, ret, spawnPromise, throw, process_chdir.
    destruct (chdir env (trace st) rootDir) as [[]|err]; simpl; [|done].
    destruct (negb _); simpl; (split; [done|]);
      exists ["install"]; rewrite <- app_assoc;
      (split; [done|]); by intros ?%list_elem_of_singleton.
Qed.

(** ** Answer projection *)

Lemma foldl_insert_lookup (l : list (string * value)) (m : dict) (k : string) :
  NoDup l.*1 →
  foldl (fun sum cur => <[cur.1 := cur.2]> sum) m l !! k =
    match (list_to_map l : dict) !! k with
    | Some v => Some v
    | None => m !! k
    end.
Proof.
  revert m. induction l as [|[a b] l IH]; intros m Hnd; [done|].
  apply NoDup_cons in Hnd as [Hfresh Hnd]. simpl.
  rewrite IH by done.
  destruct (decide (k = a)) as [->|Hne].
  - rewrite (not_elem_of_list_to_map_1 l a Hfresh), !lookup_insert_eq. done.
  - by rewrite !lookup_insert_ne.
Qed.

Lemma keep_arg_key (k : string) (v : value) :
  keep_arg (k, v) = negb (internal_key k || bool_decide (k = "")).
Proof.
  unfold keep_arg, internal_key; simpl.
  destruct k as [|c k].
  - by vm_compute.
  - rewrite (bool_decide_ext (String c k ∈ ["interactive"; "template"])
               (String c k = "interactive" ∨ String c k = "template"))
      by (rewrite !elem_of_cons, elem_of_nil; tauto).
    rewrite (bool_decide_eq_false_2 (String c k = "")) by done.
    simpl. rewrite bool_decide_or.
    destruct (bool_decide (String c k = "interactive")),
             (bool_decide (String c k = "template")),
             (Ascii.eqb c "$"), (Ascii.eqb c "_"); done.
Qed.

(** [filteredArgs] holds exactly the entries of [args] the filter keeps. *)
Lemma filterArgs_lookup (args : dict) (k : string) :
  filterArgs args !! k =
    if internal_key k || bool_decide (k = "") then None else args !! k.
Proof.
  unfold filterArgs.
  assert (NoDup (filter (fun arg => keep_arg arg = true) (map_to_list args)).*1)
    as Hnd.
  { eapply sublist_NoDup; [apply (NoDup_fst_map_to_list args)|].
    apply fmap_sublist, sublist_filter. }
  rewrite foldl_insert_lookup, lookup_empty by done.
  apply option_eq; intros v.
  transitivity ((k, v) ∈ filter (fun arg => keep_arg arg = true) (map_to_list args)).
  - rewrite (elem_of_list_to_map _ k v Hnd).
    by destruct (list_to_map _ !! k).
  - rewrite list_elem_of_filter, elem_of_map_to_list, keep_arg_key.
    destruct (internal_key k || bool_decide (k = "")); simpl; intuition congruence.
Qed.

(** C3 fails on two kinds of key that are not internal: a resolved [name]
    (likewise [year], [contact]) is replaced by the computed one, and the
    empty key is dropped. *)
Lemma view_overrides_name_and_drops_empty_key :
  let args : dict := {[ "name" := VStr "elsewhere"; "" := VStr "anonymous" ]} in
  let view := makeView (filterArgs args) "myapp" 2026 "Ada" in
  (internal_key "name" = false ∧ args !! "name" = Some (VStr "elsewhere") ∧
   view !! "name" = Some (VStr "myapp")) ∧
  (internal_key "" = false ∧ args !! "" = Some (VStr "anonymous") ∧
   view !! "" = None).
Proof.
  vm_compute. repeat split; reflexivity.
Qed.

(** C3, amended: the view holds [name], [year] and [contact] with the
    computed values (whatever the answers hold under these keys), leaves
    out [interactive], [template], every key beginning with [$] or [_]
    and the empty key, and holds every other resolved key with its
    resolved value. *)
Theorem view_lookup (args : dict) (name : string) (year : Z) (contact k : string) :
  makeView (filterArgs args) name year contact !! k =
    if bool_decide (k = "name") then Some (VStr name)
    else if bool_decide (k = "year") then Some (VNum year)
    else if bool_decide (k = "contact") then Some (VStr contact)
    else if internal_key k || bool_decide (k = "") then None
    else args !! k.
Proof.
  unfold makeView. rewrite !lookup_insert, filterArgs_lookup.
  repeat case_decide; repeat case_bool_decide; by simplify_eq.
Qed.

(** ** The option schema *)

Lemma getYargsOptions_resolved env root pfx pft dflt skip (extraOptions : schema)
    st templates :
  getAvailableTemplates env (trace st ++ [EvGitconfig]) root pfx
    = Resolved templates →
  ∃ gitUser,
    getYargsOptions env root pfx pft dflt skip extraOptions st =
      (Val (spread (baseOptions env gitUser templates
                      (Nat.ltb 1 (length templates) && pft) dflt skip)
                   extraOptions),
       record (EvTemplates root pfx) (record EvGitconfig st)).
Proof.
  intros Htpl.
  unfold getYargsOptions, getGitUser, bind, try_catch, ask, ret.
  destruct (gitconfig_get env (trace st)) as [config|err]; simpl;
    rewrite Htpl; eauto.
Qed.

Lemma policy_spread (base extraOptions : schema) (k : string) :
  extraOptions !! k = None →
  policy (spread base extraOptions) k = policy base k.
Proof.
  intros Hk. unfold policy, spread. by rewrite lookup_union_r.
Qed.

Lemma baseOptions_policy_template env gitUser templates askForTemplate dflt skip :
  policy (baseOptions env gitUser templates askForTemplate dflt skip) "template"
  = Some (if askForTemplate then PromptIfNoArg else PromptNever).
Proof. reflexivity. Qed.

Lemma baseOptions_policy_license_fields env gitUser templates askForTemplate dflt
    skip (k : string) :
  k ∈ ["description"; "author"; "email"; "license"] →
  policy (baseOptions env gitUser templates askForTemplate dflt skip) k
  = Some (if skip then PromptNever else PromptIfNoArg).
Proof.
  rewrite !elem_of_cons, elem_of_nil.
  intros [->|[->|[->|[->|[]]]]]; reflexivity.
Qed.

(** C8 fails when the caller's extra options redefine [template]: the
    spread of line 144 replaces the entry, policy included, here with a
    single template available. *)
Lemma extra_template_entry_sets_policy :
  ∃ sch st',
    getYargsOptions
      (Demo.env_with (Some "myapp") ["default"] (Rejected Demo.enoent) (Resolved ()) 0)
      "/opt/templates" "" false "default" true
      {[ "template" :=
           {| od_type := Some "list"; od_describe := Some "flavour";
              od_default := VStr "default"; od_prompt := Some PromptAlways;
              od_choices := Some ["default"] |} ]}
      Demo.start = (Val sch, st') ∧
    policy sch "template" = Some PromptAlways.
Proof.
  eexists _, _. split; [vm_compute; reflexivity|]. vm_compute. reflexivity.
Qed.

(** C8, amended: when the extra options do not define [template], the
    assembled schema gives [template] the policy [never] as soon as at
    most one template is available, whatever [promptForTemplate] is, and
    the policy [if-no-arg] exactly when more than one template is
    available and the caller opted in; it is [never] in every other
    case. *)
Theorem getYargsOptions_template_policy env root pfx pft dflt skip
    (extraOptions : schema) st templates :
  getAvailableTemplates env (trace st ++ [EvGitconfig]) root pfx
    = Resolved templates →
  extraOptions !! "template" = None →
  ∃ sch st',
    getYargsOptions env root pfx pft dflt skip extraOptions st = (Val sch, st') ∧
    ((length templates ≤ 1)%nat → policy sch "template" = Some PromptNever) ∧
    (policy sch "template" = Some PromptIfNoArg ↔
       (1 < length templates)%nat ∧ pft = true) ∧
    (policy sch "template" = Some PromptNever ↔
       ¬ ((1 < length templates)%nat ∧ pft = true)).
Proof.
  intros Htpl Hextra.
  destruct (getYargsOptions_resolved env root pfx pft dflt skip extraOptions
              st templates Htpl) as [gitUser Hrun].
  eexists _, _. split; [exact Hrun|].
  rewrite policy_spread, baseOptions_policy_template by done.
  destruct (Nat.ltb_spec 1 (length templates)), pft; simpl;
    repeat split; intros; try done; try lia; naive_solver lia.
Qed.

Lemma getYargsOptions_template_policy_witness :
  ∃ sch st',
    getYargsOptions
      (Demo.env_with (Some "myapp") ["default"] (Rejected Demo.enoent) (Resolved ()) 0)
      "/opt/templates" "" true "default" true ∅ Demo.start = (Val sch, st') ∧
    policy sch "template" = Some PromptNever.
Proof.
  destruct (getYargsOptions_template_policy
              (Demo.env_with (Some "myapp") ["default"] (Rejected Demo.enoent)
                 (Resolved ()) 0)
              "/opt/templates" "" true "default" true ∅ Demo.start ["default"])
    as (sch & st' & Hrun & Hone & _); [reflexivity | vm_compute; reflexivity |].
  exists sch, st'. split; [exact Hrun|]. apply Hone. simpl. lia.
Defined.

(** C2 fails when the caller's extra options redefine one of the four
    entries: the schema [create] hands to the prompt engine then carries
    the caller's policy for it. *)
Lemma extra_description_entry_is_prompted :
  (fun sch => policy sch "description")
    <$> prompted (trace (create Demo.env "create-app"
                    {| templateRoot := "/opt/templates";
                       templatePrefix := None;
                       promptForTemplate := None;
                       defaultTemplate := None;
                       skipLicense := false;
                       skipGit := false;
                       modifyName := None;
                       defaultPath := None;
                       extra := Some {[ "description" :=
                           {| od_type := Some "input";
                              od_describe := Some "what the project does";
                              od_default := VUndef;
                              od_prompt := Some PromptAlways;
                              od_choices := None |} ]};
                       after := None;
                       caveat := None |}
                    Demo.start).2)
  = [Some PromptAlways].
Proof. vm_compute. reflexivity. Qed.

(** C2, amended: [create] assembles the schema with the license prompts
    switched off whatever [skipLicense] is, so the schema handed to the
    prompt engine gives [description], [author], [email] and [license]
    the policy [never], each unless the caller's extra options define
    that entry. *)
Theorem promptStage_never_prompts_license_fields env options st templates :
  getAvailableTemplates env (trace st ++ [EvGitconfig]) (templateRoot options)
    (default "" (templatePrefix options)) = Resolved templates →
  ∃ sch,
    trace (promptStage env options st).2 =
      trace st ++ [EvGitconfig;
                   EvTemplates (templateRoot options)
                               (default "" (templatePrefix options));
                   EvPrompt "$0 <project_name> [args]" sch] ∧
    ∀ k, k ∈ ["description"; "author"; "email"; "license"] →
         default ∅ (extra options) !! k = None →
         policy sch k = Some PromptNever.
Proof.
  intros Htpl.
  destruct (getYargsOptions_resolved env (templateRoot options)
              (default "" (templatePrefix options))
              (default false (promptForTemplate options))
              (default "default" (defaultTemplate options))
              true (default ∅ (extra options)) st templates Htpl)
    as [gitUser Hrun].
  eexists. split.
  - unfold promptStage, buildSchema, bind, ask. rewrite Hrun.
    destruct (yargsInteractive env _ _ _); simpl;
      by rewrite <- !app_assoc.
  - intros k Hk Hextra.
    by rewrite policy_spread, (baseOptions_policy_license_fields _ _ _ _ _ _ k Hk).
Qed.

Lemma promptStage_never_prompts_license_fields_witness :
  ∃ sch,
    prompted (trace (promptStage Demo.env Demo.options Demo.start).2) = [sch] ∧
    policy sch "license" = Some PromptNever.
Proof.
  destruct (promptStage_never_prompts_license_fields
              Demo.env Demo.options Demo.start ["default"; "ts"] eq_refl)
    as (sch & Htrace & Hnever).
  exists sch. split.
  - rewrite Htrace. reflexivity.
  - apply Hnever; [|vm_compute; reflexivity].
    rewrite !elem_of_cons. tauto.
Defined.

(** ** Destination check *)

Lemma isEmptyDir_eq env dirname st :
  isEmptyDir env dirname st =
    match fs_readdir env (trace st) dirname with
    | Resolved entries =>
        (Val (Nat.eqb (length entries) 0), record (EvReaddir dirname) st)
    | Rejected err =>
        if has_code err "ENOENT"
        then (Val true, record (EvReaddir dirname) st)
        else (Throw err, record (EvReaddir dirname) st)
    end.
Proof.
  unfold isEmptyDir, try_catch, bind, ask, ret, throw.
  destruct (fs_readdir env (trace st) dirname) as [entries|err]; [done|].
  by destruct (has_code err "ENOENT").
Qed.

(** C4: once the name is resolved, [create] prints where the project goes
    and lists that directory.  A listing with an entry makes [create]
    reject with the "is not empty" error, the state being the one of the
    name resolution plus the printed line and the listing: nothing was
    rendered, written or spawned.  An empty listing, or a directory that
    does not exist, passes the check.  (Any other listing error is
    rethrown.) *)
Theorem create_checks_destination env appName options st firstArg name projectDir st1 :
  argv2 env = Some firstArg →
  resolveName env options firstArg st = (Val (name, projectDir), st1) →
  let line := nl +:+ "New project will be created in "
              +:+ chalk_green env projectDir +:+ "." +:+ nl in
  let st2 := record (EvReaddir projectDir) (record (EvLog line) st1) in
  match fs_readdir env (trace st1 ++ [EvLog line]) projectDir with
  | Resolved [] => checkDestination env projectDir st1 = (Val (), st2)
  | Resolved (_ :: _) =>
      create env appName options st =
        (Rejected (Error (projectDir +:+ " is not empty.")), st2)
  | Rejected err =>
      if has_code err "ENOENT"
      then checkDestination env projectDir st1 = (Val (), st2)
      else create env appName options st = (Rejected err, st2)
  end.
Proof.
  intros Harg Hname line st2.
  assert (∀ r, checkDestination env projectDir st1 = (Throw r, st2) →
               create env appName options st = (Rejected r, st2)) as Hcreate.
  { intros r Hcheck.
    unfold create, create_body. rewrite Harg.
    apply settle_throw, bind_throw. unfold scaffold.
    rewrite (bind_val _ _ _ _ _ Hname).
    by apply bind_throw. }
  assert (checkDestination env projectDir st1 =
            bind (isEmptyDir env projectDir)
                 (fun empty => if negb empty
                               then throw (Error (projectDir +:+ " is not empty."))
                               else ret ())
                 (record (EvLog line) st1)) as Hcheck by reflexivity.
  pose proof (isEmptyDir_eq env projectDir (record (EvLog line) st1)) as Hlist.
  change (trace (record (EvLog line) st1)) with (trace st1 ++ [EvLog line]) in Hlist.
  destruct (fs_readdir env (trace st1 ++ [EvLog line]) projectDir)
    as [[|entry entries]|err].
  - rewrite Hcheck. by rewrite (bind_val _ _ _ _ _ Hlist).
  - apply Hcreate. rewrite Hcheck. by rewrite (bind_val _ _ _ _ _ Hlist).
  - destruct (has_code err "ENOENT").
    + rewrite Hcheck. by rewrite (bind_val _ _ _ _ _ Hlist).
    + apply Hcreate. rewrite Hcheck. by apply bind_throw.
Qed.

Lemma create_checks_destination_witness :
  create (Demo.env_with (Some "myapp") ["default"; "ts"]
            (Resolved ["README.md"]) (Resolved ()) 0)
         "create-app" Demo.options Demo.start =
    (Rejected (Error "/work/myapp is not empty."),
     {| cwd := "/work";
        trace := [EvLog (nl +:+ "New project will be created in /work/myapp."
                         +:+ nl);
                  EvReaddir "/work/myapp"] |}).
Proof.
  exact (create_checks_destination
           (Demo.env_with (Some "myapp") ["default"; "ts"]
              (Resolved ["README.md"]) (Resolved ()) 0)
           "create-app" Demo.options Demo.start "myapp" "myapp" "/work/myapp"
           Demo.start eq_refl eq_refl).
Defined.

(** ** Version control and the caller's hook *)

Lemma gitStage_failure env options projectDir st err :
  skipGit options = false →
  execa env (trace st) "git init" []
    {| eo_shell := true; eo_stdio := None; eo_cwd := Some projectDir |}
    = Rejected err →
  gitStage env options projectDir st =
    (if has_exitCode err 127 then Ret else Throw err,
     record (EvExeca "git init" []
               {| eo_shell := true; eo_stdio := None; eo_cwd := Some projectDir |})
            st).
Proof.
  intros Hskip Hgit.
  cbv beta zeta delta [gitStage try_catch bind initGit ask return_ throw].
  rewrite Hskip; simpl. rewrite Hgit; simpl.
  by destruct (has_exitCode err 127).
Qed.

(** X1: what [create] does when [git init] fails after a completed scaffold:
    exit code 127 ends [create] on the spot with a resolved promise, any
    other failure rejects it with that failure. *)
Lemma create_git_init_failure env appName options st firstArg loc st1 err :
  argv2 env = Some firstArg →
  scaffold env options firstArg st = (Val loc, st1) →
  skipGit options = false →
  execa env (trace st1) "git init" []
    {| eo_shell := true; eo_stdio := None; eo_cwd := Some (l_projectDir loc) |}
    = Rejected err →
  create env appName options st =
    (if has_exitCode err 127 then Resolved () else Rejected err,
     record (EvExeca "git init" []
               {| eo_shell := true; eo_stdio := None;
                  eo_cwd := Some (l_projectDir loc) |})
            st1).
Proof.
  intros Harg Hscaffold Hskip Hgit.
  pose proof (gitStage_failure env options _ st1 err Hskip Hgit) as Hstage.
  unfold create, create_body. rewrite Harg.
  destruct (has_exitCode err 127).
  - apply settle_return. rewrite (bind_val _ _ _ _ _ Hscaffold).
    by apply bind_return.
  - apply settle_throw. rewrite (bind_val _ _ _ _ _ Hscaffold).
    by apply bind_throw.
Qed.

Lemma create_git_init_failure_witness :
  ∃ st',
    create (Demo.env_with (Some "myapp") ["default"; "ts"] (Rejected Demo.enoent)
              (Rejected (Demo.command_failed 1)) 0)
           "create-app" Demo.options Demo.start
    = (Rejected (Demo.command_failed 1), st').
Proof.
  eexists.
  eapply (create_git_init_failure
            (Demo.env_with (Some "myapp") ["default"; "ts"] (Rejected Demo.enoent)
               (Rejected (Demo.command_failed 1)) 0)
            "create-app" Demo.options Demo.start "myapp" _ _
            (Demo.command_failed 1)).
  - reflexivity.
  - vm_compute. reflexivity.
  - reflexivity.
  - reflexivity.
Defined.

(** C1, on a run where [git init] exits with 127 and the caller supplied
    a hook and a caveat: [create] resolves, but [git init] is the last
    thing it does.  The hook (which would print "after hook"), the
    success line and the caveat are all missing from what was printed. *)
Theorem create_stops_when_git_is_missing :
  let r := create (Demo.env_with (Some "myapp") ["default"; "ts"]
                     (Rejected Demo.enoent)
                     (Rejected (Demo.command_failed 127)) 0)
                  "create-app"
                  (Demo.options_with Demo.quiet_hook "Now run: yarn start")
                  Demo.start in
  r.1 = Resolved () ∧
  last (trace r.2) =
    Some (EvExeca "git init" []
            {| eo_shell := true; eo_stdio := None; eo_cwd := Some "/work/myapp" |}) ∧
  printed (trace r.2) =
    [nl +:+ "New project will be created in /work/myapp." +:+ nl;
     nl +:+ "Creating a new project in /work/myapp." +:+ nl;
     "Installing dependencies."].
Proof. vm_compute. repeat split; reflexivity. Qed.

(** The same caller when [git init] succeeds: the hook runs, then the
    success line and the caveat are printed. *)
Example create_reaches_success_with_git :
  printed (trace (create Demo.env "create-app"
                    (Demo.options_with Demo.quiet_hook "Now run: yarn start")
                    Demo.start).2) =
    [nl +:+ "New project will be created in /work/myapp." +:+ nl;
     nl +:+ "Creating a new project in /work/myapp." +:+ nl;
     "Installing dependencies.";
     nl +:+ "Initialized a git repository";
     "after hook";
     nl +:+ "Success! Created myapp.";
     "Now run: yarn start"].
Proof. vm_compute. reflexivity. Qed.

(** C9: when the scaffold and the version-control stage have completed
    and the [after] hook rejects (or throws), [create] rejects with that
    very error and leaves the state the hook left: neither the success
    line nor a caveat is printed after it. *)
Theorem create_propagates_hook_error env appName options st firstArg loc st1 st2
    hook err st3 :
  argv2 env = Some firstArg →
  scaffold env options firstArg st = (Val loc, st1) →
  gitStage env options (l_projectDir loc) st1 = (Val (), st2) →
  after options = Some hook →
  hook (afterHookOptions env loc) st2 = (Rejected err, st3) →
  create env appName options st = (Rejected err, st3).
Proof.
  intros Harg Hscaffold Hgit Hafter Hhook.
  unfold create, create_body. rewrite Harg.
  apply settle_throw.
  rewrite (bind_val _ _ _ _ _ Hscaffold), (bind_val _ _ _ _ _ Hgit).
  unfold finish, hookStage. rewrite Hafter.
  apply bind_throw, bind_throw. unfold await. by rewrite Hhook.
Qed.

Lemma create_propagates_hook_error_witness :
  ∃ st3,
    create Demo.env "create-app"
      (Demo.options_with Demo.failing_hook "Now run: yarn start") Demo.start
    = (Rejected (Error "boom"), st3) ∧
    printed (trace st3) =
      [nl +:+ "New project will be created in /work/myapp." +:+ nl;
       nl +:+ "Creating a new project in /work/myapp." +:+ nl;
       "Installing dependencies.";
       nl +:+ "Initialized a git repository";
       "after hook"].
Proof.
  eexists. split.
  - eapply (create_propagates_hook_error Demo.env "create-app"
              (Demo.options_with Demo.failing_hook "Now run: yarn start")
              Demo.start "myapp").
    + reflexivity.
    + vm_compute. reflexivity.
    + vm_compute. reflexivity.
    + reflexivity.
    + reflexivity.
  - vm_compute. reflexivity.
Defined.

(** ** Schema assembly *)

Lemma getYargsOptions_eq env root pfx pft dflt skip (extraOptions : schema) st :
  getYargsOptions env root pfx pft dflt skip extraOptions st =
    match getAvailableTemplates env (trace st ++ [EvGitconfig]) root pfx with
    | Resolved templates =>
        (Val (spread
                (baseOptions env
                   match gitconfig_get env (trace st) with
                   | Resolved (Some user) => user
                   | _ => no_user
                   end
                   templates (Nat.ltb 1 (length templates) && pft) dflt skip)
                extraOptions),
         record (EvTemplates root pfx) (record EvGitconfig st))
    | Rejected err =>
        (Throw err, record (EvTemplates root pfx) (record EvGitconfig st))
    end.
Proof.
  unfold getYargsOptions, getGitUser, bind, try_catch, ask, ret.
  destruct (gitconfig_get env (trace st)) as [[user|]|err']; simpl;
    by destruct (getAvailableTemplates env _ root pfx).
Qed.

Lemma dom_baseOptions env gitUser templates askForTemplate dflt skip :
  dom (baseOptions env gitUser templates askForTemplate dflt skip) =
    list_to_set ["interactive"; "description"; "author"; "email";
                 "template"; "license"].
Proof.
  unfold baseOptions. rewrite !dom_insert_L, dom_empty_L. set_solver.
Qed.

(** X3: the caller's extra options are merged last.  Every extra entry
    is in the assembled schema as given, whether it adds an option or
    replaces a base one; every base option the extra options do not name
    is present; and the schema has no other option. *)
Theorem getYargsOptions_merges_extra env root pfx pft dflt skip
    (extraOptions : schema) st templates :
  getAvailableTemplates env (trace st ++ [EvGitconfig]) root pfx
    = Resolved templates →
  ∃ sch st',
    getYargsOptions env root pfx pft dflt skip extraOptions st = (Val sch, st') ∧
    (∀ k d, extraOptions !! k = Some d → sch !! k = Some d) ∧
    dom sch = dom extraOptions ∪
              list_to_set ["interactive"; "description"; "author"; "email";
                           "template"; "license"].
Proof.
  intros Htpl. rewrite getYargsOptions_eq, Htpl.
  eexists _, _. split; [reflexivity|]. split.
  - intros k d Hk. unfold spread. by apply lookup_union_Some_l.
  - unfold spread. by rewrite dom_union_L, dom_baseOptions.
Qed.

Lemma getYargsOptions_merges_extra_witness :
  ∃ sch st',
    getYargsOptions Demo.env "/opt/templates" "" false "default" true
      {[ "typescript" :=
           {| od_type := Some "confirm"; od_describe := Some "use TypeScript";
              od_default := VBool true; od_prompt := Some PromptIfNoArg;
              od_choices := None |} ]}
      Demo.start = (Val sch, st') ∧
    policy sch "typescript" = Some PromptIfNoArg ∧
    size (dom sch) = 7%nat.
Proof.
  destruct (getYargsOptions_merges_extra Demo.env "/opt/templates" "" false
              "default" true
              {[ "typescript" :=
                   {| od_type := Some "confirm"; od_describe := Some "use TypeScript";
                      od_default := VBool true; od_prompt := Some PromptIfNoArg;
                      od_choices := None |} ]}
              Demo.start ["default"; "ts"])
    as (sch & st' & Hrun & Hextra & Hdom); [reflexivity|].
  exists sch, st'. split; [exact Hrun|]. split.
  - unfold policy. rewrite (Hextra "typescript" _ (lookup_singleton_eq _ _)).
    reflexivity.
  - rewrite Hdom. vm_compute. reflexivity.
Defined.

(** X4: the git identity lookup is best effort.  Whether it resolves,
    resolves without a user, or rejects, schema assembly goes on to
    template discovery; it throws exactly when discovery rejects, with
    that error.  The defaults of [author] and [email] are the configured
    name and email, and [undefined] when there is no identity. *)
Theorem getYargsOptions_identity_is_best_effort env root pfx pft dflt skip
    (extraOptions : schema) st :
  let st' := record (EvTemplates root pfx) (record EvGitconfig st) in
  let user := match gitconfig_get env (trace st) with
              | Resolved (Some user) => user
              | _ => no_user
              end in
  match getAvailableTemplates env (trace st ++ [EvGitconfig]) root pfx with
  | Rejected err =>
      getYargsOptions env root pfx pft dflt skip extraOptions st = (Throw err, st')
  | Resolved templates =>
      ∃ sch,
        getYargsOptions env root pfx pft dflt skip extraOptions st = (Val sch, st') ∧
        (extraOptions !! "author" = None →
           od_default <$> sch !! "author" = Some (gu_name user)) ∧
        (extraOptions !! "email" = None →
           od_default <$> sch !! "email" = Some (gu_email user))
  end.
Proof.
  intros st' user. rewrite getYargsOptions_eq.
  destruct (getAvailableTemplates env _ root pfx) as [templates|err]; [|done].
  eexists. split; [reflexivity|].
  unfold spread; split; intros Hk; by rewrite lookup_union_r.
Qed.

(** The same on a run where the lookup rejects. *)
Example getYargsOptions_without_identity :
  ∃ sch st',
    getYargsOptions
      (Scenario.with_probes (fun _ => Rejected Demo.enoent)
         (fun _ _ _ => Resolved ["default"]) Demo.env)
      "/opt/templates" "" false "default" true ∅ Demo.start = (Val sch, st') ∧
    od_default <$> sch !! "author" = Some VUndef ∧
    od_default <$> sch !! "email" = Some VUndef.
Proof. eexists _, _. vm_compute. repeat split; reflexivity. Qed.

(** ** Dependency installation, continued *)

Lemma exists__eq env filePath baseDir st :
  exists_ env filePath baseDir st =
    let p := path_resolve env (cwd st) [baseDir; filePath] in
    match fs_stat env (trace st) p with
    | Resolved _ => (Val true, record (EvStat p) st)
    | Rejected err =>
        if has_code err "ENOENT" then (Val false, record (EvStat p) st)
        else (Throw err, record (EvStat p) st)
    end.
Proof.
  unfold exists_, resolve, try_catch, bind, ask, ret, throw; simpl.
  destruct (fs_stat env (trace st) _) as [[]|err]; [done|].
  by destruct (has_code err "ENOENT").
Qed.

Lemma IsYarnAvailable_eq env st :
  IsYarnAvailable env st =
    (Val (resolved (execa env (trace st) "yarnpkg" ["--version"] execa_defaults)),
     record (EvExeca "yarnpkg" ["--version"] execa_defaults) st).
Proof.
  unfold IsYarnAvailable, try_catch, bind, ask, ret.
  by destruct (execa env (trace st) _ _ _).
Qed.



(** X6: dependencies are installed exactly when [package.json] exists in
    the project directory.  The yarn probe never throws and decides the
    manager.  Without a manifest nothing is printed, spawned or changed;
    with one, "Installing dependencies." is printed and [installDeps]
    runs with the probed manager; any other error of the manifest check
    is thrown. *)
Theorem installStage_needs_manifest env projectDir st :
  let probe := EvExeca "yarnpkg" ["--version"] execa_defaults in
  let useYarn :=
    resolved (execa env (trace st) "yarnpkg" ["--version"] execa_defaults) in
  let manifest := path_resolve env (cwd st) [projectDir; "package.json"] in
  let st' := record (EvStat manifest) (record probe st) in
  match fs_stat env (trace st ++ [probe]) manifest with
  | Resolved _ =>
      installStage env projectDir st =
        (let* _ := installDeps env projectDir useYarn in ret useYarn)
          (record (EvLog "Installing dependencies.") st')
  | Rejected err =>
      installStage env projectDir st =
        (if has_code err "ENOENT" then Val useYarn else Throw err, st')
  end.
Proof.
  intros probe useYarn manifest st'.
  pose proof (exists__eq env "package.json" projectDir (record probe st)) as Hex.
  change (cwd (record probe st)) with (cwd st) in Hex.
  change (trace (record probe st)) with (trace st ++ [probe]) in Hex.
  cbv zeta in Hex. fold manifest in Hex.
  destruct (fs_stat env (trace st ++ [probe]) manifest) as [[]|err];
    unfold installStage;
    rewrite (bind_val _ _ _ _ _ (IsYarnAvailable_eq env st)).
  - by rewrite (bind_val _ _ _ _ _ Hex).
  - destruct (has_code err "ENOENT").
    + by rewrite (bind_val _ _ _ _ _ Hex).
    + by apply bind_throw.
Qed.

(** A project without manifest: only the two probes happen. *)
Example installStage_without_manifest :
  installStage
    (Scenario.with_stat (fun _ _ => Rejected Demo.enoent) Demo.env)
    "/work/myapp" Demo.start =
    (Val true,
     {| cwd := "/work";
        trace := [EvExeca "yarnpkg" ["--version"] execa_defaults;
                  EvStat "/work/myapp/package.json"] |}).
Proof. reflexivity. Qed.

(** ** The command runner and the package installer of the hook *)

Lemma split_nonempty (sep : ascii) (s : string) : split sep s ≠ [].
Proof.
  destruct s as [|c rest]; simpl; [done|].
  destruct (Ascii.eqb c sep); [done|]. by destruct (split sep rest).
Qed.

Lemma join_cons_char (sep : string) (c : ascii) (w : string) (ws : list string) :
  join sep (String c w :: ws) = String c (join sep (w :: ws)).
Proof. by destruct ws. Qed.

(** [s.split(c).join(c)] gives [s] back. *)
Lemma join_split (sep : ascii) (s : string) :
  join (String sep "") (split sep s) = s.
Proof.
  induction s as [|c rest IH]; [done|]. simpl.
  destruct (Ascii.eqb_spec c sep) as [->|Hne].
  - pose proof (split_nonempty sep rest) as Hne.
    destruct (split sep rest) as [|w ws]; [done|].
    change (join (String sep "") ("" :: w :: ws))
      with (String sep (join (String sep "") (w :: ws))).
    by rewrite IH.
  - pose proof (split_nonempty sep rest) as Hnil.
    destruct (split sep rest) as [|w ws]; [done|].
    by rewrite join_cons_char, IH.
Qed.

(** No piece of [s.split(c)] contains [c]. *)
Lemma split_pieces (sep : ascii) (s : string) :
  Forall (fun w => has_char sep w = false) (split sep s).
Proof.
  induction s as [|c rest IH]; simpl; [by repeat constructor|].
  destruct (Ascii.eqb c sep) eqn:Hc.
  - by constructor.
  - destruct (split sep rest) as [|w ws]; simpl.
    + repeat constructor. simpl. by rewrite Hc.
    + apply Forall_cons in IH as [Hw Hws]. constructor; [|done].
      simpl. by rewrite Hc.
Qed.

(** X7: the command runner given to the hook cuts the command at every
    single space into a program and its arguments: joined again by single
    spaces they give the command back, and none of them contains a space
    (so two spaces in a row yield an empty argument, and quoting is not
    understood).  The command runs in the project directory with
    inherited streams unless the caller's options say otherwise, and the
    runner settles as [execa] does. *)
Theorem run_splits_command env loc command opts st :
  ∃ file args merged,
    (hc_run (afterHookOptions env loc) command opts st).2 =
      record (EvExeca file args merged) st ∧
    (hc_run (afterHookOptions env loc) command opts st).1 =
      execa env (trace st) file args merged ∧
    join " " (file :: args) = command ∧
    Forall (fun w => has_char " " w = false) (file :: args) ∧
    eo_cwd merged = Some (default (l_projectDir loc) (eo_cwd opts)) ∧
    eo_stdio merged = Some (default "inherit" (eo_stdio opts)) ∧
    eo_shell merged = eo_shell opts.
Proof.
  pose proof (join_split " " command) as Hjoin.
  pose proof (split_pieces " " command) as Hpieces.
  pose proof (split_nonempty " " command) as Hne.
  simpl. unfold settle, run, ask.
  destruct (split " " command) as [|file args]; [done|]. simpl.
  set (merged := {| eo_shell := eo_shell opts;
                    eo_stdio := Some (default "inherit" (eo_stdio opts));
                    eo_cwd := Some (default (l_projectDir loc) (eo_cwd opts)) |}).
  exists file, args, merged.
  destruct (execa env (trace st) file args merged) as [[]|err]; simpl; done.
Qed.

(** On a command with a doubled space. *)
Example run_keeps_empty_arguments :
  (hc_run (afterHookOptions Demo.env
             {| l_name := "myapp"; l_projectDir := "/work/myapp"; l_args := ∅;
                l_template := VStr "default";
                l_templateDir := "/opt/templates/default"; l_year := 2026;
                l_contact := "Ada"; l_filteredArgs := ∅; l_useYarn := true |})
          "npm run  build" execa_defaults Demo.start).2 =
    {| cwd := "/work";
       trace := [EvExeca "npm" ["run"; ""; "build"]
                   {| eo_shell := false; eo_stdio := Some "inherit";
                      eo_cwd := Some "/work/myapp" |}] |}.
Proof. reflexivity. Qed.

(** X8: the package installer given to the hook adds one package with the
    manager the scaffold detected: [yarnpkg --cwd <projectDir> add <pkg>]
    without touching the working directory, or, after changing into the
    project directory, [npm install -D <pkg>].  It resolves on exit code
    0 and otherwise rejects with the text "installDeps failed: " followed
    by the command line (a string, not an [Error]). *)
Theorem installNpmPackage_invocation env loc packageName st :
  (l_useYarn loc = false →
   resolved (chdir env (trace st) (l_projectDir loc)) = true) →
  let command := if l_useYarn loc then "yarnpkg" else "npm" in
  let args := if l_useYarn loc
              then ["--cwd"; l_projectDir loc; "add"; packageName]
              else ["install"; "-D"; packageName] in
  let st0 := if l_useYarn loc then st
             else {| cwd := l_projectDir loc;
                     trace := trace st ++ [EvChdir (l_projectDir loc)] |} in
  hc_installNpmPackage (afterHookOptions env loc) packageName st =
    (if Z.eqb (spawn_close env (trace st0) command args) 0 then Resolved ()
     else Rejected (Thrown (VStr ("installDeps failed: "
                                    +:+ join " " (command :: args)))),
     record (EvSpawn command args) st0).
Proof.
  intros Hchdir. simpl. unfold settle, installNpmPackage, bind, ret, process_chdir.
  destruct (l_useYarn loc); simpl.
  - by destruct (Z.eqb _ 0).
  - specialize (Hchdir eq_refl).
    destruct (chdir env (trace st) (l_projectDir loc)) as [[]|err]; [|done].
    simpl. by destruct (Z.eqb _ 0).
Qed.

Lemma installNpmPackage_invocation_witness :
  hc_installNpmPackage
    (afterHookOptions
       (Demo.env_with (Some "myapp") ["default"] (Rejected Demo.enoent)
          (Resolved ()) 1)
       {| l_name := "myapp"; l_projectDir := "/work/myapp"; l_args := ∅;
          l_template := VStr "default";
          l_templateDir := "/opt/templates/default"; l_year := 2026;
          l_contact := "Ada"; l_filteredArgs := ∅; l_useYarn := false |})
    "eslint" Demo.start =
    (Rejected (Thrown (VStr "installDeps failed: npm install -D eslint")),
     {| cwd := "/work/myapp";
        trace := [EvChdir "/work/myapp";
                  EvSpawn "npm" ["install"; "-D"; "eslint"]] |}).
Proof.
  apply (installNpmPackage_invocation
           (Demo.env_with (Some "myapp") ["default"] (Rejected Demo.enoent)
              (Resolved ()) 1)
           {| l_name := "myapp"; l_projectDir := "/work/myapp"; l_args := ∅;
              l_template := VStr "default";
              l_templateDir := "/opt/templates/default"; l_year := 2026;
              l_contact := "Ada"; l_filteredArgs := ∅; l_useYarn := false |}
           "eslint" Demo.start).
  reflexivity.
Defined.

(** ** Name resolution, continued *)

(** X9: for a first argument other than ["."], the project name is what
    the caller's [modifyName] makes of it (the argument itself without a
    transform), and the project directory is that name resolved under
    [defaultPath], or against the working directory when [defaultPath]
    is absent or empty.  A rejecting transform is thrown. *)
Theorem resolveName_uses_transform env options firstArg st :
  firstArg ≠ "." →
  let target name :=
    match defaultPath options with
    | Some p => if String.eqb p "" then name else p +:+ "/" +:+ name
    | None => name
    end in
  resolveName env options firstArg st =
    match modifyName options with
    | Some transform =>
        match transform firstArg st with
        | (Resolved name, st1) =>
            (Val (name, path_resolve env (cwd st1) [target name]), st1)
        | (Rejected err, st1) => (Throw err, st1)
        end
    | None => (Val (firstArg, path_resolve env (cwd st) [target firstArg]), st)
    end.
Proof.
  intros Hdot target. unfold resolveName.
  apply String.eqb_neq in Hdot. rewrite Hdot.
  unfold bind, await, resolve, ret, target.
  destruct (modifyName options) as [transform|].
  - destruct (transform firstArg st) as [[name|err] st1]; [|done].
    destruct (defaultPath options) as [p|]; [|done]. by destruct (String.eqb p "").
  - destruct (defaultPath options) as [p|]; [|done]. by destruct (String.eqb p "").
Qed.

Lemma resolveName_uses_transform_witness :
  resolveName Demo.env
    (Scenario.options_named (fun arg st => (Resolved ("app-" +:+ arg), st)) "/srv")
    "shop" Demo.start =
    (Val ("app-shop", "/srv/app-shop"), Demo.start).
Proof.
  exact (resolveName_uses_transform Demo.env
           (Scenario.options_named (fun arg st => (Resolved ("app-" +:+ arg), st))
              "/srv")
           "shop" Demo.start ltac:(discriminate)).
Defined.

(** ** Template validation and rendering *)

(** X10: once the answers are in, [create] checks the template directory
    (template root, then prefix and chosen template as one segment).  If
    that directory does not exist, [create] rejects with "No template
    found"; any other error of the check is rejected as it is.  Either
    way the check is the last event: nothing is rendered. *)
Theorem create_rejects_missing_template env appName options st firstArg
    name projectDir st1 st2 args st3 err :
  argv2 env = Some firstArg →
  resolveName env options firstArg st = (Val (name, projectDir), st1) →
  checkDestination env projectDir st1 = (Val (), st2) →
  promptStage env options st2 = (Val args, st3) →
  let templateDir :=
    path_resolve env (cwd st3)
      [templateRoot options;
       default "" (templatePrefix options) +:+ toString (prop args "template")] in
  let probed := path_resolve env (cwd st3) ["/"; templateDir] in
  fs_stat env (trace st3) probed = Rejected err →
  create env appName options st =
    (Rejected (if has_code err "ENOENT" then Error "No template found" else err),
     record (EvStat probed) st3).
Proof.
  intros Harg Hname Hcheck Hprompt templateDir probed Hstat.
  pose proof (exists__eq env templateDir "/" st3) as Hex.
  cbv zeta in Hex. fold probed in Hex. rewrite Hstat in Hex.
  unfold create, create_body. rewrite Harg.
  assert (∀ r, scaffold env options firstArg st = (Throw r, record (EvStat probed) st3) →
               settle (let* loc := scaffold env options firstArg in
                       gitStage env options (l_projectDir loc);;
                       finish env options loc) st =
               (Rejected r, record (EvStat probed) st3)) as Hsettle.
  { intros r Hr. by apply settle_throw, bind_throw. }
  unfold scaffold at 1 in Hsettle.
  rewrite (bind_val _ _ _ _ _ Hname), (bind_val _ _ _ _ _ Hcheck),
    (bind_val _ _ _ _ _ Hprompt) in Hsettle.
  apply Hsettle. clear Hsettle.
  rewrite (bind_val (resolve env _) _ st3 templateDir st3) by reflexivity.
  destruct (has_code err "ENOENT").
  - rewrite (bind_val _ _ _ _ _ Hex). by apply bind_throw.
  - by apply bind_throw.
Qed.

Lemma create_rejects_missing_template_witness :
  ∃ st',
    create (Scenario.with_stat (fun _ _ => Rejected Demo.enoent) Demo.env)
           "create-app" Demo.options Demo.start =
      (Rejected (Error "No template found"), st') ∧
    last (trace st') = Some (EvStat "/opt/templates/default").
Proof.
  eexists. split.
  - eapply (create_rejects_missing_template
              (Scenario.with_stat (fun _ _ => Rejected Demo.enoent) Demo.env)
              "create-app" Demo.options Demo.start "myapp" "myapp" "/work/myapp"
              Demo.start _ _ _ Demo.enoent).
    + reflexivity.
    + reflexivity.
    + vm_compute. reflexivity.
    + vm_compute. reflexivity.
    + reflexivity.
  - vm_compute. reflexivity.
Defined.

(** X11: rendering is fatal.  When the template directory exists and the
    renderer rejects, [create] rejects with the renderer's error, and the
    render call is the last event: no license is written, nothing is
    installed, no repository is initialised. *)
Theorem create_stops_when_render_fails env appName options st firstArg
    name projectDir st1 st2 args st3 err :
  argv2 env = Some firstArg →
  resolveName env options firstArg st = (Val (name, projectDir), st1) →
  checkDestination env projectDir st1 = (Val (), st2) →
  promptStage env options st2 = (Val args, st3) →
  let templateDir :=
    path_resolve env (cwd st3)
      [templateRoot options;
       default "" (templatePrefix options) +:+ toString (prop args "template")] in
  let probed := path_resolve env (cwd st3) ["/"; templateDir] in
  let view :=
    makeView (filterArgs args) name (currentYear env)
      (getContact (prop args "author") (prop args "email")) in
  let st4 :=
    record (EvLog (nl +:+ "Creating a new project in "
                   +:+ chalk_green env projectDir +:+ "." +:+ nl))
      (record (EvStat probed) st3) in
  fs_stat env (trace st3) probed = Resolved () →
  copy env (trace st4) projectDir templateDir view = Rejected err →
  create env appName options st =
    (Rejected err, record (EvCopy projectDir templateDir view) st4).
Proof.
  intros Harg Hname Hcheck Hprompt templateDir probed view st4 Hstat Hcopy.
  pose proof (exists__eq env templateDir "/" st3) as Hex.
  cbv zeta in Hex. fold probed in Hex. rewrite Hstat in Hex.
  unfold create, create_body. rewrite Harg.
  apply settle_throw, bind_throw. unfold scaffold.
  rewrite (bind_val _ _ _ _ _ Hname), (bind_val _ _ _ _ _ Hcheck),
    (bind_val _ _ _ _ _ Hprompt).
  rewrite (bind_val (resolve env _) _ st3 templateDir st3) by reflexivity.
  rewrite (bind_val _ _ _ _ _ Hex).
  rewrite (bind_val _ _ (record (EvStat probed) st3) () (record (EvStat probed) st3))
    by reflexivity.
  apply bind_throw. unfold render.
  rewrite (bind_val (console_log _) _ _ () st4) by reflexivity.
  unfold ask. fold view. by rewrite Hcopy.
Qed.

Lemma create_stops_when_render_fails_witness :
  ∃ st',
    create (Scenario.with_copy (fun _ _ _ _ => Rejected Scenario.eacces) Demo.env)
           "create-app" Demo.options Demo.start = (Rejected Scenario.eacces, st') ∧
    printed (trace st') =
      [nl +:+ "New project will be created in /work/myapp." +:+ nl;
       nl +:+ "Creating a new project in /work/myapp." +:+ nl] ∧
    omap (fun e => match e with
                   | EvCopy projectDir templateDir _ => Some (projectDir, templateDir)
                   | _ => None
                   end) (trace st') = [("/work/myapp", "/opt/templates/default")].
Proof.
  eexists. split.
  - eapply (create_stops_when_render_fails
              (Scenario.with_copy (fun _ _ _ _ => Rejected Scenario.eacces) Demo.env)
              "create-app" Demo.options Demo.start "myapp" "myapp" "/work/myapp"
              Demo.start _ _ _ Scenario.eacces).
    + reflexivity.
    + reflexivity.
    + vm_compute. reflexivity.
    + vm_compute. reflexivity.
    + reflexivity.
    + reflexivity.
  - vm_compute. split; reflexivity.
Defined.

(** ** Success and the caveat *)



(** A caveat function that throws: the success line is the last thing
    printed, and [create] rejects. *)
Example create_rejects_on_failing_caveat :
  let r := create Demo.env "create-app"
             (Scenario.options_caveat
                (CaveatFunction (fun _ st => (Rejected (Error "no notes"), st))))
             Demo.start in
  r.1 = Rejected (Error "no notes") ∧
  last (printed (trace r.2)) = Some (nl +:+ "Success! Created myapp.").
Proof. vm_compute. split; reflexivity. Qed.

(** ** The context handed to the hook *)

Lemma scaffold_locals env options firstArg st loc st' :
  scaffold env options firstArg st = (Val loc, st') →
  l_template loc = prop (l_args loc) "template" ∧
  l_year loc = currentYear env ∧
  l_contact loc = getContact (prop (l_args loc) "author") (prop (l_args loc) "email") ∧
  l_filteredArgs loc = filterArgs (l_args loc).
Proof.
  intros Hrun. unfold scaffold in Hrun.
  apply bind_val_inv in Hrun as ([name projectDir] & ? & _ & Hrun).
  repeat (apply bind_val_inv in Hrun as (? & ? & _ & Hrun)).
  unfold ret in Hrun. by simplify_eq.
Qed.

(** X13: after a completed scaffold, the [answers] of the hook context
    are the resolved arguments without [interactive], [template], the
    keys beginning with [$] or [_] and the empty key, plus [contact],
    which is the author and email formatted and replaces a resolved
    [contact].  Unlike the render view they keep a resolved [name] and
    [year]: the computed ones are separate fields of the context, next to
    the chosen template. *)
Theorem hook_answers_lookup env options firstArg st loc st' (k : string) :
  scaffold env options firstArg st = (Val loc, st') →
  hc_answers (afterHookOptions env loc) !! k =
    (if bool_decide (k = "contact")
     then Some (VStr (getContact (prop (l_args loc) "author")
                                 (prop (l_args loc) "email")))
     else if internal_key k || bool_decide (k = "") then None
     else l_args loc !! k) ∧
  hc_year (afterHookOptions env loc) = currentYear env ∧
  hc_template (afterHookOptions env loc) = prop (l_args loc) "template".
Proof.
  intros Hrun.
  destruct (scaffold_locals _ _ _ _ _ _ Hrun) as (Htpl & Hyear & Hcontact & Hfiltered).
  simpl. rewrite Hfiltered, Hcontact, lookup_insert, filterArgs_lookup.
  split; [|by split].
  destruct (decide ("contact" = k)) as [<-|Hne]; [done|].
  by rewrite (bool_decide_eq_false_2 (k = "contact")).
Qed.

Lemma hook_answers_lookup_witness :
  ∃ loc st',
    scaffold Demo.env Demo.options "myapp" Demo.start = (Val loc, st') ∧
    hc_answers (afterHookOptions Demo.env loc) !! "contact" =
      Some (VStr "Ada <ada@example.org>") ∧
    hc_answers (afterHookOptions Demo.env loc) !! "template" = None ∧
    hc_year (afterHookOptions Demo.env loc) = 2026.
Proof.
  eexists _, _. split; [vm_compute; reflexivity|].
  match goal with
  | |- context [afterHookOptions Demo.env ?l] =>
      pose proof (fun k => hook_answers_lookup Demo.env Demo.options "myapp"
                             Demo.start l _ k ltac:(vm_compute; reflexivity))
        as Hlookup
  end.
  destruct (Hlookup "contact") as (-> & Hyear & _).
  destruct (Hlookup "template") as (-> & _ & _).
  split; [reflexivity|]. split; [reflexivity|]. exact Hyear.
Defined.

(** ** Answer projection, continued *)

(** X14: the projection of the answers only removes entries and is
    stable: every entry it keeps is an entry of the answers with the same
    value, and projecting a second time changes nothing. *)
Theorem filterArgs_idempotent (args : dict) :
  filterArgs args ⊆ args ∧ filterArgs (filterArgs args) = filterArgs args.
Proof.
  split.
  - apply map_subseteq_spec. intros k v. rewrite filterArgs_lookup.
    by destruct (internal_key k || bool_decide (k = "")).
  - apply map_eq. intros k. rewrite !filterArgs_lookup.
    by destruct (internal_key k || bool_decide (k = "")).
Qed.
